(* Shallow embedding of rtl-sdr-audio.c (sdr_callback, sighandler and the
   tail of main) and proofs about its decimation / demodulation pipeline.

   Modelling choices:
   - the raw buffer [unsigned char *iqBuffer] is a [list Byte.byte]; a read
     past its end is undefined behaviour in C and is the [None] branch here;
   - the global [float g_audio_buffer[AUDIO_BUFFER_LENGTH * AUDIO_CHANNELS]]
     is a [list Q] carried in the program state; a write past its end is the
     [None] branch;
   - [double] arithmetic on samples is modelled exactly over [Q] (rounding
     is not modelled); [sqrt] and the running peak [maxA] are real numbers;
   - the two observable effects of a callback, the level meter printed on
     stderr and [snd_pcm_writei], are events appended to a trace. *)

From Stdlib Require Import Strings.Byte String Ascii.
From Stdlib Require Import List Arith Lia ZArith QArith Qreals Reals Lra Lqa.
Import ListNotations.

(** Linear arithmetic over [Q] and over [R]. *)
Ltac qlra := Lqa.lra.
Ltac rlra := Lra.lra.
Ltac qnra := Lqa.nra.

Open Scope nat_scope.

(* ------------------------------------------------------------------------ *)
(** * Constants (lines 33-51) *)

Definition AUDIO_CHANNELS : nat := 2.
Definition AUDIO_BUFFER_LENGTH : nat := 16384.
Definition SDR_SAMPLE_RATIO : nat := 5.
Definition SDR_BUFFER_LENGTH : nat := AUDIO_BUFFER_LENGTH * SDR_SAMPLE_RATIO * 2.

(* ------------------------------------------------------------------------ *)
(** * Program state *)

(** Observable effects. [ev_meter maxA] is the level bar printed by
    [fprintf(stderr, "\33[2K\r%0*d\r", (int)(maxA * 30), 0)]; its width is
    derived from [maxA]. [ev_pcm_write buf n] is
    [snd_pcm_writei(g_audio_handle, g_audio_buffer, n)]. [ev_cancel_async] is
    [rtlsdr_cancel_async(sdr_dev)]. *)
Inductive event : Type :=
| ev_meter (maxA : R)
| ev_pcm_write (buf : list Q) (frames : nat)
| ev_cancel_async.

Record state : Type := mk_state {
  do_exit : bool;               (* static int do_exit *)
  audio_channel : Z;            (* static int audio_channel: 0 both, 1 left, 2 right *)
  g_audio_buffer : list Q;      (* float g_audio_buffer[...] *)
  trace : list event            (* effects performed so far *)
}.

(** The fixed size of the global audio buffer. *)
Definition wf_state (st : state) : Prop :=
  length (g_audio_buffer st) = AUDIO_BUFFER_LENGTH * AUDIO_CHANNELS.

(** Zero-initialised globals, with a given channel routing. *)
Definition init_state (ch : Z) : state :=
  mk_state false ch (repeat 0%Q (AUDIO_BUFFER_LENGTH * AUDIO_CHANNELS)) [].

(* ------------------------------------------------------------------------ *)
(** * Array accesses *)

(** [iqBuffer[idx]], [None] when past the end of the buffer. *)
Definition iq_read (iq : list byte) (idx : nat) : option byte := nth_error iq idx.

(** [g_audio_buffer[idx] = v], [None] when past the end of the array. *)
Fixpoint store (buf : list Q) (idx : nat) (v : Q) : option (list Q) :=
  match buf, idx with
  | [], _ => None
  | _ :: t, 0 => Some (v :: t)
  | h :: t, S idx' => option_map (cons h) (store t idx' v)
  end.

Notation "'let*' x := m 'in' k" :=
  (match m with Some x => k | None => None end)
  (at level 200, x pattern, m at level 100, right associativity).

(* ------------------------------------------------------------------------ *)
(** * sdr_callback (lines 76-104) *)

(** [(double)(((b & 0xFF) - 127.5) / 127.5)] *)
Definition sample_value (b : byte) : Q :=
  (inject_Z (Z.land (Z.of_nat (Byte.to_nat b)) 255) - (255 # 2)) / (255 # 2).

(** [(j * SDR_SAMPLE_RATIO * 2) + (k * 2)]: offset of the I byte. *)
Definition iq_index (j k : nat) : nat := (j * SDR_SAMPLE_RATIO * 2) + (k * 2).

(** The inner loop [for(int k = ...; k < SDR_SAMPLE_RATIO; k++)]: [n] is the
    number of remaining iterations. *)
Fixpoint sum_loop (iq : list byte) (j k n : nat) (sumI sumQ : Q) : option (Q * Q) :=
  match n with
  | 0 => Some (sumI, sumQ)
  | S n' =>
      let* bI := iq_read iq (iq_index j k) in
      let* bQ := iq_read iq (iq_index j k + 1) in
      sum_loop iq j (S k) n' (sumI + sample_value bI)%Q (sumQ + sample_value bQ)%Q
  end.

(** Lines 87-94: [sumI = sumQ = 0], the inner loop, then
    [i = sumI / SDR_SAMPLE_RATIO; q = sumQ / SDR_SAMPLE_RATIO]. *)
Definition decimate (iq : list byte) (j : nat) : option (Q * Q) :=
  let* (sumI, sumQ) := sum_loop iq j 0 SDR_SAMPLE_RATIO 0%Q 0%Q in
  Some (sumI / inject_Z (Z.of_nat SDR_SAMPLE_RATIO),
        sumQ / inject_Z (Z.of_nat SDR_SAMPLE_RATIO))%Q.

(** Line 95: [a = sqrt((i * i) + (q * q))]. *)
Definition magnitude (i q : Q) : R := sqrt (Q2R (i * i + q * q)).

(** Line 98: [audio_channel == 0 || audio_channel == 1]. *)
Definition sel_left (ch : Z) : bool := (ch =? 0)%Z || (ch =? 1)%Z.
(** Line 99: [audio_channel == 0 || audio_channel == 2]. *)
Definition sel_right (ch : Z) : bool := (ch =? 0)%Z || (ch =? 2)%Z.

(** One iteration of the outer loop (lines 87-99) on [(maxA, g_audio_buffer)]. *)
Definition frame_body (ch : Z) (iq : list byte) (j : nat) (maxA : R) (buf : list Q)
  : option (R * list Q) :=
  let* (i, q) := decimate iq j in
  let a := magnitude i q in
  let maxA' := if Rlt_dec maxA a then a else maxA in
  let* buf1 := if sel_left ch then store buf (j * 2) q else Some buf in
  let* buf2 := if sel_right ch then store buf1 (j * 2 + 1) q else Some buf1 in
  Some (maxA', buf2).

(** The outer loop [for(int j = ...; j < AUDIO_BUFFER_LENGTH; j++)]: [n] is
    the number of remaining iterations. *)
Fixpoint frame_loop (ch : Z) (iq : list byte) (j n : nat) (maxA : R) (buf : list Q)
  : option (R * list Q) :=
  match n with
  | 0 => Some (maxA, buf)
  | S n' =>
      let* (maxA', buf') := frame_body ch iq j maxA buf in
      frame_loop ch iq (S j) n' maxA' buf'
  end.

(** [sdr_callback(iqBuffer, len, ctx)]; [len] is not used by the code. *)
Definition sdr_callback (iq : list byte) (len : Z) (st : state) : option state :=
  if do_exit st then Some st else
  let* (maxA, buf) := frame_loop (audio_channel st) iq 0 AUDIO_BUFFER_LENGTH 0%R
                                 (g_audio_buffer st) in
  Some (mk_state (do_exit st) (audio_channel st) buf
          (trace st ++ [ev_meter maxA; ev_pcm_write buf AUDIO_BUFFER_LENGTH])).

(** The driver calling the callback once per delivered buffer, in order. *)
Fixpoint run_callbacks (bufs : list (list byte * Z)) (st : state) : option state :=
  match bufs with
  | [] => Some st
  | (iq, len) :: rest =>
      let* st' := sdr_callback iq len st in
      run_callbacks rest st'
  end.

(** [sighandler] (lines 70-74). *)
Definition sighandler (st : state) : state :=
  mk_state true (audio_channel st) (g_audio_buffer st) (trace st ++ [ev_cancel_async]).

(* ------------------------------------------------------------------------ *)
(** * Tail of main (lines 197-207) *)

(** After [r = rtlsdr_read_async(...)] returns: the message printed, and the
    value returned by [main] ([return r >= 0 ? r : -r;]). *)
Definition main_exit (do_exit_flag : bool) (r : Z) : string * Z :=
  ((if do_exit_flag then "User cancel, exiting..." else "Library error, exiting...")%string,
   if (r >=? 0)%Z then r else (- r)%Z).

(* ------------------------------------------------------------------------ *)
(** * The driver and main (lines 106-208) *)

Definition AUDIO_SAMPLE_RATE : Z := 48000.
Definition SDR_SAMPLE_RATE : Z := 240000.
Definition EXIT_FAILURE : Z := 1.

(** What the Sample Source does while [rtlsdr_read_async] runs: it delivers
    buffers of [SDR_BUFFER_LENGTH] bytes to [sdr_callback], and a termination
    signal may run [sighandler] between two deliveries. *)
Inductive drv_event : Type :=
| drv_buffer (iq : list byte)
| drv_signal.

Fixpoint run_driver (evs : list drv_event) (st : state) : option state :=
  match evs with
  | [] => Some st
  | drv_buffer iq :: rest =>
      let* st' := sdr_callback iq (Z.of_nat SDR_BUFFER_LENGTH) st in
      run_driver rest st'
  | drv_signal :: rest => run_driver rest (sighandler st)
  end.

(** Calls [main] makes to its collaborators (ALSA, librtlsdr, convenience.c),
    in order; [c_usage] is [usage()], which prints and calls [exit(1)]. *)
Inductive main_call : Type :=
| c_device_search (s : string)
| c_usage
| c_snd_pcm_open
| c_snd_pcm_set_params (channels : nat) (rate latency : Z)
| c_rtlsdr_open (idx : Z)
| c_set_sample_rate (rate : Z)
| c_set_frequency (f : Z)
| c_auto_gain
| c_gain_set (g : Z)
| c_ppm_set (p : Z)
| c_reset_buffer
| c_read_async (len : nat)
| c_rtlsdr_close
| c_snd_pcm_drain
| c_snd_pcm_close.

(** Results of the external functions [main] relies on. *)
Record env : Type := mk_env {
  verbose_device_search : string -> Z;
  atofs : string -> Q;
  atof : string -> Q;
  atoi : string -> Z;
  nearest_gain : Z -> Z;
  snd_pcm_open_ret : Z;
  snd_pcm_set_params_ret : Z;
  rtlsdr_open_ret : Z;
  rtlsdr_read_async_ret : Z
}.

(** The locals of [main] set by the option loop, and [audio_channel]. *)
Record config : Type := mk_config {
  sdr_dev_index : Z;
  sdr_dev_given : bool;
  sdr_gain : Z;
  sdr_ppm_error : Z;
  sdr_frequency : Z;
  cfg_audio_channel : Z
}.

(** Initial values (lines 41, 111-116). *)
Definition config0 : config := mk_config 0 false 0 0 148039000 0.

(** C's conversion of a [double] to an integer type: truncation toward 0.
    For [(uint32_t)] the model then wraps modulo 2^32; C leaves values out
    of range undefined. *)
Definition trunc_Q (x : Q) : Z := Z.quot (Qnum x) (Zpos (Qden x)).

(** One option returned by [getopt] with its [optarg] (lines 130-152); [None]
    is the [default] branch, [usage()]. *)
Definition parse_opt (e : env) (cfg : config) (c : ascii) (arg : string)
  : option (config * list main_call) :=
  if Ascii.eqb c "d"%char then
    Some (mk_config (verbose_device_search e arg) true (sdr_gain cfg) (sdr_ppm_error cfg)
                    (sdr_frequency cfg) (cfg_audio_channel cfg), [c_device_search arg])
  else if Ascii.eqb c "f"%char then
    Some (mk_config (sdr_dev_index cfg) (sdr_dev_given cfg) (sdr_gain cfg) (sdr_ppm_error cfg)
                    (trunc_Q (atofs e arg) mod 2 ^ 32)%Z (cfg_audio_channel cfg), [])
  else if Ascii.eqb c "g"%char then
    Some (mk_config (sdr_dev_index cfg) (sdr_dev_given cfg) (trunc_Q (atof e arg * 10)%Q)
                    (sdr_ppm_error cfg) (sdr_frequency cfg) (cfg_audio_channel cfg), [])
  else if Ascii.eqb c "p"%char then
    Some (mk_config (sdr_dev_index cfg) (sdr_dev_given cfg) (sdr_gain cfg) (atoi e arg)
                    (sdr_frequency cfg) (cfg_audio_channel cfg), [])
  else if Ascii.eqb c "c"%char then
    Some (mk_config (sdr_dev_index cfg) (sdr_dev_given cfg) (sdr_gain cfg) (sdr_ppm_error cfg)
                    (sdr_frequency cfg) (atoi e arg), [])
  else None.

(** The [while ((opt = getopt(...)) != -1)] loop over the options [getopt]
    returns: the configuration reached (or [None] when [usage()] exits) and
    the calls made so far. *)
Fixpoint parse_opts (e : env) (cfg : config) (opts : list (ascii * string))
  : option config * list main_call :=
  match opts with
  | [] => (Some cfg, [])
  | (c, arg) :: rest =>
      match parse_opt e cfg c arg with
      | None => (None, [c_usage])
      | Some (cfg', calls) =>
          let (res, calls') := parse_opts e cfg' rest in (res, calls ++ calls')
      end
  end.

(** Lines 182-189: automatic gain when [sdr_gain == 0], else the nearest
    supported gain. *)
Definition gain_calls (e : env) (g : Z) : list main_call :=
  if (g =? 0)%Z then [c_auto_gain] else [c_gain_set (nearest_gain e g)].

(** [main(argc, argv)]: the calls made, the exit status, and the state of the
    callback globals when the process ends. [None] only when a delivered
    buffer makes [sdr_callback] read out of bounds. *)
Definition main (e : env) (opts : list (ascii * string)) (drv : list drv_event)
  : option (list main_call * Z * state) :=
  let st0 := init_state 0 in
  match parse_opts e config0 opts with
  | (None, calls) => Some (calls, 1%Z, st0)
  | (Some cfg, calls) =>
    let st0 := init_state (cfg_audio_channel cfg) in
    let calls := calls ++ [c_snd_pcm_open] in
    if (snd_pcm_open_ret e <? 0)%Z then Some (calls, EXIT_FAILURE, st0) else
    let calls := calls ++ [c_snd_pcm_set_params AUDIO_CHANNELS AUDIO_SAMPLE_RATE 500000] in
    if (snd_pcm_set_params_ret e <? 0)%Z then Some (calls, EXIT_FAILURE, st0) else
    let idx := if sdr_dev_given cfg then sdr_dev_index cfg else verbose_device_search e "0" in
    let calls := if sdr_dev_given cfg then calls else calls ++ [c_device_search "0"] in
    if (idx <? 0)%Z then Some (calls, 1%Z, st0) else
    let calls := calls ++ [c_rtlsdr_open idx] in
    if (rtlsdr_open_ret e <? 0)%Z then Some (calls, 1%Z, st0) else
    let calls := calls ++ [c_set_sample_rate SDR_SAMPLE_RATE; c_set_frequency (sdr_frequency cfg)]
                 ++ gain_calls e (sdr_gain cfg)
                 ++ [c_ppm_set (sdr_ppm_error cfg); c_reset_buffer;
                     c_read_async SDR_BUFFER_LENGTH] in
    let* st := run_driver drv st0 in
    let r := rtlsdr_read_async_ret e in
    Some (calls ++ [c_rtlsdr_close; c_snd_pcm_drain; c_snd_pcm_close],
          snd (main_exit (do_exit st) r), st)
  end.

(* ------------------------------------------------------------------------ *)
(** * Derived views and the spec's definitions *)

(** The decimated pair of frame [j] as [decimate] computes it (0 when a read
    would be out of bounds). *)
Definition dec_I (iq : list byte) (j : nat) : Q :=
  match decimate iq j with Some (i, _) => i | None => 0%Q end.
Definition dec_Q (iq : list byte) (j : nat) : Q :=
  match decimate iq j with Some (_, q) => q | None => 0%Q end.

(** The envelope magnitude [a] of frame [j]. *)
Definition frame_mag (iq : list byte) (j : nat) : R := magnitude (dec_I iq j) (dec_Q iq j).

(** Line 96, [if(a > maxA) maxA = a;], folded over frames [j .. j+n-1]. *)
Definition peak_fold (iq : list byte) (m : R) (j n : nat) : R :=
  fold_left (fun m f => if Rlt_dec m (frame_mag iq f) then frame_mag iq f else m)
            (seq j n) m.

(** Spec, data model: "value [v] maps to amplitude [(v - 127.5) / 127.5]". *)
Definition spec_amplitude (v : Z) : Q := (inject_Z v - (255 # 2)) / (255 # 2).

(** The unsigned value of the byte at [idx]. *)
Definition byte_at (iq : list byte) (idx : nat) : Z := Z.of_nat (Byte.to_nat (nth idx iq Byte.x00)).

(** Arithmetic mean of a list of rationals. *)
Definition spec_mean (xs : list Q) : Q :=
  (fold_right Qplus 0 xs / inject_Z (Z.of_nat (length xs)))%Q.

(** Spec, engine step 1-2: the mean over [k] in [[0, ratio)] of the I samples at
    offsets [j*ratio*2 + k*2] (and of the Q samples at [+1]). *)
Definition spec_decimated_I (iq : list byte) (j : nat) : Q :=
  spec_mean (map (fun k => spec_amplitude (byte_at iq (j * SDR_SAMPLE_RATIO * 2 + k * 2)))
                 (seq 0 SDR_SAMPLE_RATIO)).
Definition spec_decimated_Q (iq : list byte) (j : nat) : Q :=
  spec_mean (map (fun k => spec_amplitude (byte_at iq (j * SDR_SAMPLE_RATIO * 2 + k * 2 + 1)))
                 (seq 0 SDR_SAMPLE_RATIO)).

(** The argument of the last occurrence of option [c] among [opts]. *)
Fixpoint last_arg (c : ascii) (opts : list (ascii * string)) : option string :=
  match opts with
  | [] => None
  | (c', a) :: rest =>
      match last_arg c rest with
      | Some x => Some x
      | None => if Ascii.eqb c c' then Some a else None
      end
  end.

(** The calls made once the audio device is ready, up to [rtlsdr_open]. *)
Definition device_calls (cfg : config) : list main_call :=
  if sdr_dev_given cfg then [] else [c_device_search "0"].


(** An environment in which every collaborator succeeds. *)
Definition env_ok : env :=
  mk_env (fun _ => 0%Z) (fun _ => 0%Q) (fun _ => 0%Q) (fun _ => 2%Z) (fun g => g) 0 0 0 0.

(** A raw buffer of 163840 zero bytes (all samples at amplitude -1). *)
Definition zero_buffer : list byte := repeat Byte.x00 SDR_BUFFER_LENGTH.

Example sample_value_0 : sample_value Byte.x00 == (-1)%Q.
Proof. reflexivity. Qed.
Example sample_value_255 : sample_value Byte.xff == 1%Q.
Proof. reflexivity. Qed.
Example decimate_small :
  dec_I (repeat Byte.x00 10) 0 == (-1)%Q /\ dec_Q (repeat Byte.xff 10) 0 == 1%Q.
Proof. split; vm_compute; reflexivity. Qed.

(* ------------------------------------------------------------------------ *)
(** * Helper lemmas *)

Lemma land_byte (b : byte) :
  Z.land (Z.of_nat (Byte.to_nat b)) 255 = Z.of_nat (Byte.to_nat b).
Proof.
  change 255%Z with (Z.ones 8).
  rewrite Z.land_ones by lia.
  apply Z.mod_small. pose proof (Byte.to_nat_bounded b). lia.
Qed.

Lemma sample_value_amplitude (b : byte) :
  sample_value b = spec_amplitude (Z.of_nat (Byte.to_nat b)).
Proof. unfold sample_value, spec_amplitude. now rewrite land_byte. Qed.

Lemma sample_value_bounds (b : byte) : (-1 <= sample_value b <= 1)%Q.
Proof.
  rewrite sample_value_amplitude. unfold spec_amplitude.
  pose proof (Byte.to_nat_bounded b) as Hb.
  assert (H0 : (0 <= inject_Z (Z.of_nat (Byte.to_nat b)))%Q).
  { change 0%Q with (inject_Z 0). rewrite <- Zle_Qle. lia. }
  assert (H1 : (inject_Z (Z.of_nat (Byte.to_nat b)) <= 255)%Q).
  { change 255%Q with (inject_Z 255). rewrite <- Zle_Qle. lia. }
  set (x := inject_Z (Z.of_nat (Byte.to_nat b))) in *.
  split.
  - apply Qle_shift_div_l; [reflexivity|]. qlra.
  - apply Qle_shift_div_r; [reflexivity|]. qlra.
Qed.

Lemma sum_loop_ok (iq : list byte) (j k n : nat) (sI sQ : Q) :
  iq_index j (k + n) <= length iq ->
  sum_loop iq j k n sI sQ =
    Some (fold_left (fun s t => s + sample_value (nth (iq_index j t) iq Byte.x00))%Q
                    (seq k n) sI,
          fold_left (fun s t => s + sample_value (nth (iq_index j t + 1) iq Byte.x00))%Q
                    (seq k n) sQ).
Proof.
  revert k sI sQ; induction n as [|n IH]; intros k sI sQ Hlen; [reflexivity|].
  unfold iq_index, SDR_SAMPLE_RATIO in *.
  simpl. unfold iq_read, iq_index, SDR_SAMPLE_RATIO.
  rewrite (nth_error_nth' iq Byte.x00) by lia.
  rewrite (nth_error_nth' iq Byte.x00) by lia.
  apply IH. unfold iq_index, SDR_SAMPLE_RATIO. lia.
Qed.

Lemma decimate_ok (iq : list byte) (j : nat) :
  iq_index j SDR_SAMPLE_RATIO <= length iq ->
  decimate iq j = Some (dec_I iq j, dec_Q iq j).
Proof.
  intros H. unfold dec_I, dec_Q, decimate.
  rewrite sum_loop_ok by (simpl; exact H). reflexivity.
Qed.

Lemma sum_loop_Q_bounds (iq : list byte) (j k n : nat) (sI sQ x y : Q) :
  sum_loop iq j k n sI sQ = Some (x, y) ->
  (- inject_Z (Z.of_nat n) + sQ <= y <= inject_Z (Z.of_nat n) + sQ)%Q.
Proof.
  revert k sI sQ; induction n as [|n IH]; intros k sI sQ Hs; simpl in Hs.
  - injection Hs as <- <-. simpl. change (inject_Z 0) with 0%Q. qlra.
  - destruct (iq_read iq (iq_index j k)) as [bI|]; [|discriminate].
    destruct (iq_read iq (iq_index j k + 1)) as [bQ|]; [|discriminate].
    apply IH in Hs. pose proof (sample_value_bounds bQ).
    rewrite Nat2Z.inj_succ, <- Z.add_1_r, inject_Z_plus in *.
    change (inject_Z 1) with 1%Q. qlra.
Qed.

Lemma dec_Q_bounds (iq : list byte) (j : nat) : (-1 <= dec_Q iq j <= 1)%Q.
Proof.
  unfold dec_Q, decimate.
  destruct (sum_loop iq j 0 SDR_SAMPLE_RATIO 0 0) as [[x y]|] eqn:Hs; [|qlra].
  apply sum_loop_Q_bounds in Hs.
  change (inject_Z (Z.of_nat SDR_SAMPLE_RATIO)) with 5%Q in *.
  split.
  - apply Qle_shift_div_l; [reflexivity|]. qlra.
  - apply Qle_shift_div_r; [reflexivity|]. qlra.
Qed.

Lemma store_ok (buf : list Q) (idx : nat) (v : Q) :
  idx < length buf ->
  exists buf', store buf idx v = Some buf' /\ length buf' = length buf /\
    forall i, nth i buf' 0%Q = if i =? idx then v else nth i buf 0%Q.
Proof.
  revert idx; induction buf as [|h t IH]; intros idx Hidx; simpl in Hidx; [lia|].
  destruct idx as [|idx].
  - exists (v :: t). split; [reflexivity|]. split; [reflexivity|].
    intros [|i]; reflexivity.
  - destruct (IH idx) as (t' & Ht & Hl & Hn); [lia|].
    exists (h :: t'). simpl. rewrite Ht. split; [reflexivity|].
    split; [simpl; lia|]. intros [|i]; [reflexivity|]. simpl. apply Hn.
Qed.

(** Case analysis on the boolean comparisons and channel tests of a goal. *)
Ltac nat_bool_cases :=
  repeat match goal with
  | |- context [Nat.eqb ?a ?b] => destruct (Nat.eqb_spec a b)
  | |- context [Nat.leb ?a ?b] => destruct (Nat.leb_spec a b)
  | |- context [Nat.ltb ?a ?b] => destruct (Nat.ltb_spec a b)
  | |- context [sel_left ?c] => destruct (sel_left c)
  | |- context [sel_right ?c] => destruct (sel_right c)
  end; simpl; try subst; first [reflexivity | lia].

Lemma frame_body_ok (ch : Z) (iq : list byte) (j : nat) (m : R) (buf : list Q) :
  iq_index j SDR_SAMPLE_RATIO <= length iq -> 2 * j + 1 < length buf ->
  exists buf',
    frame_body ch iq j m buf =
      Some (if Rlt_dec m (frame_mag iq j) then frame_mag iq j else m, buf') /\
    length buf' = length buf /\
    (forall f, nth (2 * f) buf' 0%Q =
       if (f =? j) && sel_left ch then dec_Q iq j else nth (2 * f) buf 0%Q) /\
    (forall f, nth (2 * f + 1) buf' 0%Q =
       if (f =? j) && sel_right ch then dec_Q iq j else nth (2 * f + 1) buf 0%Q).
Proof.
  intros Hiq Hbuf. unfold frame_body. rewrite decimate_ok by exact Hiq.
  fold (frame_mag iq j).
  destruct (sel_left ch) eqn:HL; destruct (sel_right ch) eqn:HR.
  - destruct (store_ok buf (j * 2) (dec_Q iq j)) as (b1 & Hs1 & Hl1 & Hn1); [lia|].
    destruct (store_ok b1 (j * 2 + 1) (dec_Q iq j)) as (b2 & Hs2 & Hl2 & Hn2); [lia|].
    rewrite Hs1, Hs2. exists b2. split; [reflexivity|]. split; [lia|].
    split; intros f; rewrite Hn2, Hn1; nat_bool_cases.
  - destruct (store_ok buf (j * 2) (dec_Q iq j)) as (b1 & Hs1 & Hl1 & Hn1); [lia|].
    rewrite Hs1. exists b1. split; [reflexivity|]. split; [lia|].
    split; intros f; rewrite Hn1; nat_bool_cases.
  - destruct (store_ok buf (j * 2 + 1) (dec_Q iq j)) as (b2 & Hs2 & Hl2 & Hn2); [lia|].
    rewrite Hs2. exists b2. split; [reflexivity|]. split; [lia|].
    split; intros f; rewrite Hn2; nat_bool_cases.
  - exists buf. split; [reflexivity|]. split; [reflexivity|].
    split; intros f; nat_bool_cases.
Qed.

Lemma frame_loop_ok (ch : Z) (iq : list byte) (n j : nat) (m : R) (buf : list Q) :
  iq_index (j + n) 0 <= length iq -> 2 * (j + n) <= length buf ->
  exists buf',
    frame_loop ch iq j n m buf = Some (peak_fold iq m j n, buf') /\
    length buf' = length buf /\
    (forall f, nth (2 * f) buf' 0%Q =
       if (j <=? f) && (f <? j + n) && sel_left ch then dec_Q iq f
       else nth (2 * f) buf 0%Q) /\
    (forall f, nth (2 * f + 1) buf' 0%Q =
       if (j <=? f) && (f <? j + n) && sel_right ch then dec_Q iq f
       else nth (2 * f + 1) buf 0%Q).
Proof.
  revert j m buf; induction n as [|n IH]; intros j m buf Hiq Hbuf.
  - exists buf. split; [reflexivity|]. split; [reflexivity|].
    split; intros f; nat_bool_cases.
  - unfold iq_index, SDR_SAMPLE_RATIO in Hiq.
    destruct (frame_body_ok ch iq j m buf) as (b1 & Hb1 & Hl1 & HL1 & HR1);
      [unfold iq_index, SDR_SAMPLE_RATIO; lia | lia |].
    destruct (IH (S j) (if Rlt_dec m (frame_mag iq j) then frame_mag iq j else m) b1)
      as (b2 & Hb2 & Hl2 & HL2 & HR2);
      [unfold iq_index, SDR_SAMPLE_RATIO; lia | lia |].
    exists b2. split; [simpl; rewrite Hb1, Hb2; reflexivity|]. split; [lia|].
    split; intros f; [rewrite HL2, HL1 | rewrite HR2, HR1]; nat_bool_cases.
Qed.

Lemma frame_mag_nonneg (iq : list byte) (j : nat) : (0 <= frame_mag iq j)%R.
Proof. apply sqrt_pos. Qed.

Lemma peak_fold_spec (iq : list byte) (n j : nat) (m : R) :
  (m <= peak_fold iq m j n)%R /\
  (forall f, j <= f < j + n -> (frame_mag iq f <= peak_fold iq m j n)%R) /\
  (peak_fold iq m j n = m \/ exists f, j <= f < j + n /\ peak_fold iq m j n = frame_mag iq f).
Proof.
  revert j m; induction n as [|n IH]; intros j m.
  - split; [apply Rle_refl|]. split; [intros f Hf; lia|]. left; reflexivity.
  - change (peak_fold iq m j (S n))
      with (peak_fold iq (if Rlt_dec m (frame_mag iq j) then frame_mag iq j else m) (S j) n).
    set (m' := if Rlt_dec m (frame_mag iq j) then frame_mag iq j else m).
    assert (Hm' : (m <= m')%R /\ (frame_mag iq j <= m')%R /\ (m' = m \/ m' = frame_mag iq j)).
    { unfold m'. destruct (Rlt_dec m (frame_mag iq j)) as [H|H].
      - split; [rlra|]. split; [rlra|]. right; reflexivity.
      - split; [rlra|]. split; [rlra|]. left; reflexivity. }
    destruct (IH (S j) m') as (H1 & H2 & H3).
    split; [rlra|]. split.
    + intros f Hf. destruct (Nat.eq_dec f j) as [->|Hne]; [rlra|]. apply H2. lia.
    + destruct H3 as [H3|(f & Hf & H3)].
      * destruct Hm' as (_ & _ & [Hm'|Hm']); [left; congruence|].
        right. exists j. split; [lia|]. congruence.
      * right. exists f. split; [lia|]. exact H3.
Qed.

(** The running peak started at 0 is the maximum magnitude of the frames. *)
Lemma peak_fold_max (iq : list byte) (n : nat) :
  0 < n ->
  (forall f, f < n -> (frame_mag iq f <= peak_fold iq 0 0 n)%R) /\
  (exists f, f < n /\ peak_fold iq 0 0 n = frame_mag iq f).
Proof.
  intros Hn. destruct (peak_fold_spec iq n 0 0%R) as (H1 & H2 & H3).
  split; [intros f Hf; apply H2; lia|].
  destruct H3 as [H3|(f & Hf & H3)].
  - exists 0. split; [exact Hn|].
    pose proof (H2 0 ltac:(lia)). pose proof (frame_mag_nonneg iq 0). rlra.
  - exists f. split; [lia|exact H3].
Qed.

(** The callback on a long enough buffer, with the flag clear: every read and
    write is in bounds, the selected slots of every frame receive [q], the
    other slots are unchanged, and the meter and one PCM write are emitted. *)
Lemma sdr_callback_ok (iq : list byte) (len : Z) (st : state) :
  wf_state st -> SDR_BUFFER_LENGTH <= length iq -> do_exit st = false ->
  exists buf',
    sdr_callback iq len st =
      Some (mk_state false (audio_channel st) buf'
              (trace st ++ [ev_meter (peak_fold iq 0 0 AUDIO_BUFFER_LENGTH);
                            ev_pcm_write buf' AUDIO_BUFFER_LENGTH])) /\
    length buf' = AUDIO_BUFFER_LENGTH * AUDIO_CHANNELS /\
    (forall f, f < AUDIO_BUFFER_LENGTH -> nth (2 * f) buf' 0%Q =
       if sel_left (audio_channel st) then dec_Q iq f else nth (2 * f) (g_audio_buffer st) 0%Q) /\
    (forall f, f < AUDIO_BUFFER_LENGTH -> nth (2 * f + 1) buf' 0%Q =
       if sel_right (audio_channel st) then dec_Q iq f
       else nth (2 * f + 1) (g_audio_buffer st) 0%Q).
Proof.
  intros Hwf Hiq Hdo. unfold wf_state, AUDIO_CHANNELS in Hwf.
  unfold SDR_BUFFER_LENGTH, SDR_SAMPLE_RATIO in Hiq.
  destruct (frame_loop_ok (audio_channel st) iq AUDIO_BUFFER_LENGTH 0 0%R (g_audio_buffer st))
    as (buf' & Hl & Hlen & HL & HR);
    [unfold iq_index, SDR_SAMPLE_RATIO; lia | lia |].
  exists buf'. unfold sdr_callback. rewrite Hdo, Hl.
  split; [reflexivity|]. split; [unfold AUDIO_CHANNELS; lia|].
  split; intros f Hf; [rewrite HL | rewrite HR];
    replace ((0 <=? f) && (f <? 0 + AUDIO_BUFFER_LENGTH)) with true
      by (symmetry; apply andb_true_intro; split; [apply Nat.leb_le | apply Nat.ltb_lt]; lia);
    reflexivity.
Qed.

Lemma AUDIO_BUFFER_LENGTH_pos : 0 < AUDIO_BUFFER_LENGTH.
Proof. apply Nat.ltb_lt. vm_compute. reflexivity. Qed.

Lemma sel_left_0 : sel_left 0 = true.
Proof. reflexivity. Qed.

(** The all-zero buffer, routed to both channels: the first slot receives -1. *)
Lemma zero_buffer_first_slot :
  exists st', sdr_callback zero_buffer (Z.of_nat SDR_BUFFER_LENGTH) (init_state 0) = Some st' /\
    nth 0 (g_audio_buffer st') 0%Q == (-1)%Q.
Proof.
  destruct (sdr_callback_ok zero_buffer (Z.of_nat SDR_BUFFER_LENGTH) (init_state 0))
    as (buf' & Hcb & _ & HL & _).
  - apply repeat_length.
  - unfold zero_buffer. rewrite repeat_length. apply le_n.
  - reflexivity.
  - exists (mk_state false 0 buf' (trace (init_state 0) ++
      [ev_meter (peak_fold zero_buffer 0 0 AUDIO_BUFFER_LENGTH);
       ev_pcm_write buf' AUDIO_BUFFER_LENGTH])).
    split; [exact Hcb|]. simpl g_audio_buffer.
    change 0 with (2 * 0) at 1. rewrite (HL 0 AUDIO_BUFFER_LENGTH_pos). vm_compute. reflexivity.
Qed.

Lemma Q2R_minus_one (x : Q) : x == (-1)%Q -> Q2R x = (-1)%R.
Proof.
  intros H. rewrite (Qeq_eqR _ _ H). unfold Q2R. simpl. rewrite Rinv_1. rlra.
Qed.

(* ------------------------------------------------------------------------ *)
(** * Claims *)

(** C1 (corrected): for a raw buffer of the expected length processed while
    the cancellation flag is clear, every channel slot selected by the routing
    mode for frame [j] receives the decimated Q component [q] of that frame
    (lines 98-99 store [q]); the envelope magnitude [a] is not stored, it only
    feeds the peak meter. *)
Theorem written_value_is_q (iq : list byte) (len : Z) (st : state) :
  wf_state st -> length iq = SDR_BUFFER_LENGTH -> do_exit st = false ->
  exists st', sdr_callback iq len st = Some st' /\
    forall j, j < AUDIO_BUFFER_LENGTH ->
      (sel_left (audio_channel st) = true ->
         nth (2 * j) (g_audio_buffer st') 0%Q = dec_Q iq j) /\
      (sel_right (audio_channel st) = true ->
         nth (2 * j + 1) (g_audio_buffer st') 0%Q = dec_Q iq j).
Proof.
  intros Hwf Hiq Hdo.
  destruct (sdr_callback_ok iq len st Hwf ltac:(lia) Hdo) as (buf' & Hcb & _ & HL & HR).
  eexists. split; [exact Hcb|]. intros j Hj. simpl g_audio_buffer.
  rewrite (HL j Hj), (HR j Hj).
  split; intros H; rewrite H; reflexivity.
Qed.

Lemma written_value_is_q_witness :
  wf_state (init_state 0) /\ length zero_buffer = SDR_BUFFER_LENGTH /\
  do_exit (init_state 0) = false /\
  exists st', sdr_callback zero_buffer (Z.of_nat SDR_BUFFER_LENGTH) (init_state 0) = Some st' /\
    forall j, j < AUDIO_BUFFER_LENGTH ->
      (sel_left 0 = true -> nth (2 * j) (g_audio_buffer st') 0%Q = dec_Q zero_buffer j) /\
      (sel_right 0 = true -> nth (2 * j + 1) (g_audio_buffer st') 0%Q = dec_Q zero_buffer j).
Proof.
  split; [apply repeat_length|]. split; [apply repeat_length|]. split; [reflexivity|].
  apply (written_value_is_q zero_buffer (Z.of_nat SDR_BUFFER_LENGTH) (init_state 0));
    [apply repeat_length | apply repeat_length | reflexivity].
Defined.

(** C1 counterexample: on the all-zero buffer with both channels selected,
    the first slot holds [q = -1], not the magnitude [sqrt 2 >= 0]. *)
Lemma written_value_not_magnitude :
  exists st', sdr_callback zero_buffer (Z.of_nat SDR_BUFFER_LENGTH) (init_state 0) = Some st' /\
    Q2R (nth 0 (g_audio_buffer st') 0%Q) <> frame_mag zero_buffer 0.
Proof.
  destruct zero_buffer_first_slot as (st' & Hcb & Hv).
  exists st'. split; [exact Hcb|].
  rewrite (Q2R_minus_one _ Hv). pose proof (frame_mag_nonneg zero_buffer 0). rlra.
Qed.

(** C2 (confirmed): for a raw buffer of the expected length and a frame
    [j < OutputFrames], the decimated I value is the mean over [k < ratio] of
    the amplitudes [(v - 127.5) / 127.5] of the bytes at [j*ratio*2 + k*2],
    and the decimated Q value the same mean over the bytes at [+1]. *)
Theorem decimated_pair_is_mean (iq : list byte) (j : nat) :
  length iq = SDR_BUFFER_LENGTH -> j < AUDIO_BUFFER_LENGTH ->
  exists i q, decimate iq j = Some (i, q) /\
    i == spec_decimated_I iq j /\ q == spec_decimated_Q iq j.
Proof.
  intros Hiq Hj. unfold decimate.
  rewrite sum_loop_ok
    by (rewrite Hiq; unfold iq_index, SDR_BUFFER_LENGTH, SDR_SAMPLE_RATIO; lia).
  do 2 eexists. split; [reflexivity|].
  unfold spec_decimated_I, spec_decimated_Q, spec_mean, byte_at, iq_index.
  simpl. rewrite !sample_value_amplitude.
  split; field.
Qed.

Lemma decimated_pair_is_mean_witness :
  length zero_buffer = SDR_BUFFER_LENGTH /\ 1 < AUDIO_BUFFER_LENGTH /\
  exists i q, decimate zero_buffer 1 = Some (i, q) /\
    i == spec_decimated_I zero_buffer 1 /\ q == spec_decimated_Q zero_buffer 1.
Proof.
  split; [apply repeat_length|]. split; [apply Nat.ltb_lt; vm_compute; reflexivity|].
  apply (decimated_pair_is_mean zero_buffer 1);
    [apply repeat_length | apply Nat.ltb_lt; vm_compute; reflexivity].
Defined.

(** C3 (corrected): for a raw buffer of the expected length, the value
    written to every selected channel slot of every output frame is the
    decimated Q component and lies in [[-1, 1]] (not in [[0, 1]]). *)
Theorem written_value_bounds (iq : list byte) (len : Z) (st : state) :
  wf_state st -> length iq = SDR_BUFFER_LENGTH -> do_exit st = false ->
  exists st', sdr_callback iq len st = Some st' /\
    forall j, j < AUDIO_BUFFER_LENGTH ->
      (sel_left (audio_channel st) = true ->
         (-1 <= nth (2 * j) (g_audio_buffer st') 0%Q <= 1)%Q) /\
      (sel_right (audio_channel st) = true ->
         (-1 <= nth (2 * j + 1) (g_audio_buffer st') 0%Q <= 1)%Q).
Proof.
  intros Hwf Hiq Hdo.
  destruct (sdr_callback_ok iq len st Hwf ltac:(lia) Hdo) as (buf' & Hcb & _ & HL & HR).
  eexists. split; [exact Hcb|]. intros j Hj. simpl g_audio_buffer.
  rewrite (HL j Hj), (HR j Hj).
  split; intros H; rewrite H; apply dec_Q_bounds.
Qed.

Lemma written_value_bounds_witness :
  wf_state (init_state 2) /\ length zero_buffer = SDR_BUFFER_LENGTH /\
  do_exit (init_state 2) = false /\
  exists st', sdr_callback zero_buffer 0%Z (init_state 2) = Some st' /\
    forall j, j < AUDIO_BUFFER_LENGTH ->
      (sel_left 2 = true -> (-1 <= nth (2 * j) (g_audio_buffer st') 0%Q <= 1)%Q) /\
      (sel_right 2 = true -> (-1 <= nth (2 * j + 1) (g_audio_buffer st') 0%Q <= 1)%Q).
Proof.
  split; [apply repeat_length|]. split; [apply repeat_length|]. split; [reflexivity|].
  apply (written_value_bounds zero_buffer 0%Z (init_state 2));
    [apply repeat_length | apply repeat_length | reflexivity].
Defined.

(** C3 counterexample: on the all-zero buffer the first slot receives -1,
    outside [[0, 1]]. *)
Lemma written_value_negative :
  exists st', sdr_callback zero_buffer (Z.of_nat SDR_BUFFER_LENGTH) (init_state 0) = Some st' /\
    ~ (0 <= nth 0 (g_audio_buffer st') 0%Q <= 1)%Q.
Proof.
  destruct zero_buffer_first_slot as (st' & Hcb & Hv).
  exists st'. split; [exact Hcb|]. intros [H0 _]. qlra.
Qed.

(** C4 (corrected): the callback never inspects its length argument. Its
    result is the same for every length value, and on a buffer of
    RawBufferLength bytes with the flag clear a call with any length value
    processes every frame and writes the whole audio buffer to the sink. *)
Theorem length_argument_ignored (iq : list byte) (len : Z) (st : state) :
  wf_state st -> length iq = SDR_BUFFER_LENGTH -> do_exit st = false ->
  sdr_callback iq len st = sdr_callback iq (Z.of_nat SDR_BUFFER_LENGTH) st /\
  exists st' m, sdr_callback iq len st = Some st' /\
    trace st' = trace st ++ [ev_meter m; ev_pcm_write (g_audio_buffer st') AUDIO_BUFFER_LENGTH].
Proof.
  intros Hwf Hiq Hdo. split; [reflexivity|].
  destruct (sdr_callback_ok iq len st Hwf ltac:(lia) Hdo) as (buf' & Hcb & _).
  do 2 eexists. split; [exact Hcb|]. reflexivity.
Qed.

Lemma length_argument_ignored_witness :
  wf_state (init_state 1) /\ length zero_buffer = SDR_BUFFER_LENGTH /\
  do_exit (init_state 1) = false /\
  sdr_callback zero_buffer 7%Z (init_state 1)
    = sdr_callback zero_buffer (Z.of_nat SDR_BUFFER_LENGTH) (init_state 1) /\
  exists st' m, sdr_callback zero_buffer 7%Z (init_state 1) = Some st' /\
    trace st' = trace (init_state 1) ++
      [ev_meter m; ev_pcm_write (g_audio_buffer st') AUDIO_BUFFER_LENGTH].
Proof.
  split; [apply repeat_length|]. split; [apply repeat_length|]. split; [reflexivity|].
  apply (length_argument_ignored zero_buffer 7%Z (init_state 1));
    [apply repeat_length | apply repeat_length | reflexivity].
Defined.

(** C4 counterexample: a call with length 0 (not RawBufferLength) on a full
    buffer still writes a full frame set to the audio sink. *)
Lemma zero_length_call_writes :
  (0 <> Z.of_nat SDR_BUFFER_LENGTH)%Z /\
  exists st' b, sdr_callback zero_buffer 0%Z (init_state 0) = Some st' /\
    trace st' = [ev_meter (peak_fold zero_buffer 0 0 AUDIO_BUFFER_LENGTH);
                 ev_pcm_write b AUDIO_BUFFER_LENGTH].
Proof.
  split; [intros H; vm_compute in H; discriminate H|].
  destruct (sdr_callback_ok zero_buffer 0%Z (init_state 0)) as (buf' & Hcb & _).
  - apply repeat_length.
  - unfold zero_buffer. rewrite repeat_length. apply le_n.
  - reflexivity.
  - do 2 eexists. split; [exact Hcb|]. reflexivity.
Qed.

(** C5 (confirmed): once the cancellation flag is set, every later callback
    invocation is a no-op: whatever buffers the driver still delivers, the
    state (audio buffer, flag, routing mode, and the trace of meter and sink
    writes) is left unchanged. *)
Theorem cancelled_callbacks_noop (bufs : list (list byte * Z)) (st : state) :
  do_exit st = true -> run_callbacks bufs st = Some st.
Proof.
  intros Hdo. induction bufs as [|[iq len] rest IH]; [reflexivity|].
  simpl. unfold sdr_callback. rewrite Hdo. exact IH.
Qed.

Lemma cancelled_callbacks_noop_witness :
  do_exit (sighandler (init_state 0)) = true /\
  run_callbacks [(zero_buffer, Z.of_nat SDR_BUFFER_LENGTH); (zero_buffer, 0%Z)]
    (sighandler (init_state 0)) = Some (sighandler (init_state 0)).
Proof.
  split; [reflexivity|].
  apply cancelled_callbacks_noop. reflexivity.
Defined.

(** C6 (confirmed): two consecutive invocations with the same buffer and
    length, with the flag clear and the same routing mode, leave the audio
    buffer in the same state and append the same events (meter value and
    frames written to the sink). *)
Theorem callback_repeat_same (iq : list byte) (len : Z) (st : state) :
  wf_state st -> length iq = SDR_BUFFER_LENGTH -> do_exit st = false ->
  exists st1 st2 evs,
    sdr_callback iq len st = Some st1 /\ sdr_callback iq len st1 = Some st2 /\
    g_audio_buffer st2 = g_audio_buffer st1 /\
    trace st1 = trace st ++ evs /\ trace st2 = trace st1 ++ evs.
Proof.
  intros Hwf Hiq Hdo.
  destruct (sdr_callback_ok iq len st Hwf ltac:(lia) Hdo) as (b1 & Hcb1 & Hl1 & HL1 & HR1).
  set (st1 := mk_state false (audio_channel st) b1
      (trace st ++ [ev_meter (peak_fold iq 0 0 AUDIO_BUFFER_LENGTH);
                    ev_pcm_write b1 AUDIO_BUFFER_LENGTH])) in Hcb1.
  destruct (sdr_callback_ok iq len st1 Hl1 ltac:(lia) eq_refl)
    as (b2 & Hcb2 & Hl2 & HL2 & HR2).
  change (audio_channel st1) with (audio_channel st) in HL2, HR2.
  change (g_audio_buffer st1) with b1 in HL2, HR2.
  assert (Hb : b2 = b1).
  { apply nth_ext with (d := 0%Q) (d' := 0%Q); [congruence|].
    intros idx Hidx. rewrite Hl2 in Hidx. unfold AUDIO_CHANNELS in Hidx.
    destruct (Nat.Even_or_Odd idx) as [[f ->]|[f ->]].
    - rewrite (HL2 f ltac:(lia)), (HL1 f ltac:(lia)).
      destruct (sel_left (audio_channel st)); reflexivity.
    - rewrite (HR2 f ltac:(lia)), (HR1 f ltac:(lia)).
      destruct (sel_right (audio_channel st)); reflexivity. }
  exists st1. eexists. eexists.
  split; [exact Hcb1|]. split; [exact Hcb2|].
  simpl. split; [exact Hb|]. split; [reflexivity|]. rewrite Hb. reflexivity.
Qed.

Lemma callback_repeat_same_witness :
  wf_state (init_state 1) /\ length zero_buffer = SDR_BUFFER_LENGTH /\
  do_exit (init_state 1) = false /\
  exists st1 st2 evs,
    sdr_callback zero_buffer 0%Z (init_state 1) = Some st1 /\
    sdr_callback zero_buffer 0%Z st1 = Some st2 /\
    g_audio_buffer st2 = g_audio_buffer st1 /\
    trace st1 = trace (init_state 1) ++ evs /\ trace st2 = trace st1 ++ evs.
Proof.
  split; [apply repeat_length|]. split; [apply repeat_length|]. split; [reflexivity|].
  apply (callback_repeat_same zero_buffer 0%Z (init_state 1));
    [apply repeat_length | apply repeat_length | reflexivity].
Defined.

(** C7 (confirmed): a callback (flag clear) emits one meter value [m] that is
    the maximum envelope magnitude [sqrt (I^2 + Q^2)] over the output frames
    of this buffer: every frame's magnitude is at most [m] and some frame's
    magnitude equals [m]. [m] depends on this buffer alone, not on earlier
    calls ([maxA] is reset to 0 on entry). *)
Theorem peak_is_frame_max (iq : list byte) (len : Z) (st : state) :
  wf_state st -> length iq = SDR_BUFFER_LENGTH -> do_exit st = false ->
  exists st' m, sdr_callback iq len st = Some st' /\
    trace st' = trace st ++ [ev_meter m; ev_pcm_write (g_audio_buffer st') AUDIO_BUFFER_LENGTH] /\
    (forall j, j < AUDIO_BUFFER_LENGTH -> (frame_mag iq j <= m)%R) /\
    (exists j, j < AUDIO_BUFFER_LENGTH /\ m = frame_mag iq j).
Proof.
  intros Hwf Hiq Hdo.
  destruct (sdr_callback_ok iq len st Hwf ltac:(lia) Hdo) as (buf' & Hcb & _).
  destruct (peak_fold_max iq AUDIO_BUFFER_LENGTH AUDIO_BUFFER_LENGTH_pos) as (Hub & Hatt).
  do 2 eexists. split; [exact Hcb|]. split; [reflexivity|].
  split; [exact Hub | exact Hatt].
Qed.

Lemma peak_is_frame_max_witness :
  wf_state (init_state 0) /\ length zero_buffer = SDR_BUFFER_LENGTH /\
  do_exit (init_state 0) = false /\
  exists st' m, sdr_callback zero_buffer 0%Z (init_state 0) = Some st' /\
    trace st' = trace (init_state 0) ++
      [ev_meter m; ev_pcm_write (g_audio_buffer st') AUDIO_BUFFER_LENGTH] /\
    (forall j, j < AUDIO_BUFFER_LENGTH -> (frame_mag zero_buffer j <= m)%R) /\
    (exists j, j < AUDIO_BUFFER_LENGTH /\ m = frame_mag zero_buffer j).
Proof.
  split; [apply repeat_length|]. split; [apply repeat_length|]. split; [reflexivity|].
  apply (peak_is_frame_max zero_buffer 0%Z (init_state 0));
    [apply repeat_length | apply repeat_length | reflexivity].
Defined.

(** C8 (confirmed): for a callback (flag clear): in mode 1 (left) each frame
    writes [q] to its left slot [2j] and leaves its right slot [2j+1]
    unchanged; in mode 2 (right) it writes the right slot and leaves the left
    slot unchanged; in mode 0 (both) the two slots of each frame are equal. *)
Theorem channel_routing (iq : list byte) (len : Z) (st : state) :
  wf_state st -> length iq = SDR_BUFFER_LENGTH -> do_exit st = false ->
  exists st', sdr_callback iq len st = Some st' /\
    forall j, j < AUDIO_BUFFER_LENGTH ->
      (audio_channel st = 1%Z ->
         nth (2 * j) (g_audio_buffer st') 0%Q = dec_Q iq j /\
         nth (2 * j + 1) (g_audio_buffer st') 0%Q = nth (2 * j + 1) (g_audio_buffer st) 0%Q) /\
      (audio_channel st = 2%Z ->
         nth (2 * j + 1) (g_audio_buffer st') 0%Q = dec_Q iq j /\
         nth (2 * j) (g_audio_buffer st') 0%Q = nth (2 * j) (g_audio_buffer st) 0%Q) /\
      (audio_channel st = 0%Z ->
         nth (2 * j) (g_audio_buffer st') 0%Q = nth (2 * j + 1) (g_audio_buffer st') 0%Q).
Proof.
  intros Hwf Hiq Hdo.
  destruct (sdr_callback_ok iq len st Hwf ltac:(lia) Hdo) as (buf' & Hcb & _ & HL & HR).
  eexists. split; [exact Hcb|]. intros j Hj. cbn [g_audio_buffer].
  rewrite (HL j Hj), (HR j Hj).
  split; [|split]; intros Hch; rewrite Hch; [split | split | ]; reflexivity.
Qed.

Lemma channel_routing_witness :
  wf_state (init_state 2) /\ length zero_buffer = SDR_BUFFER_LENGTH /\
  do_exit (init_state 2) = false /\
  exists st', sdr_callback zero_buffer 0%Z (init_state 2) = Some st' /\
    forall j, j < AUDIO_BUFFER_LENGTH ->
      (audio_channel (init_state 2) = 1%Z ->
         nth (2 * j) (g_audio_buffer st') 0%Q = dec_Q zero_buffer j /\
         nth (2 * j + 1) (g_audio_buffer st') 0%Q
           = nth (2 * j + 1) (g_audio_buffer (init_state 2)) 0%Q) /\
      (audio_channel (init_state 2) = 2%Z ->
         nth (2 * j + 1) (g_audio_buffer st') 0%Q = dec_Q zero_buffer j /\
         nth (2 * j) (g_audio_buffer st') 0%Q = nth (2 * j) (g_audio_buffer (init_state 2)) 0%Q) /\
      (audio_channel (init_state 2) = 0%Z ->
         nth (2 * j) (g_audio_buffer st') 0%Q = nth (2 * j + 1) (g_audio_buffer st') 0%Q).
Proof.
  split; [apply repeat_length|]. split; [apply repeat_length|]. split; [reflexivity|].
  apply (channel_routing zero_buffer 0%Z (init_state 2));
    [apply repeat_length | apply repeat_length | reflexivity].
Defined.

(** C9 (corrected): the value returned by [main] is the magnitude [|r|] of
    the delivery loop's return code [r], whatever the cancellation flag; it is
    0 exactly when [r = 0]. The flag only selects the message printed. *)
Theorem exit_status_is_abs (flag : bool) (r : Z) :
  snd (main_exit flag r) = Z.abs r /\
  (snd (main_exit flag r) = 0 <-> r = 0)%Z /\
  fst (main_exit flag r) =
    (if flag then "User cancel, exiting..." else "Library error, exiting...")%string.
Proof.
  unfold main_exit. simpl.
  destruct (Z.geb_spec r 0) as [H|H].
  - rewrite Z.abs_eq by lia. split; [reflexivity|]. split; [tauto|reflexivity].
  - rewrite Z.abs_neq by lia. split; [reflexivity|]. split; [lia|reflexivity].
Qed.

(** C9 counterexample: the delivery loop returning 0 without a user request
    (flag clear) gives exit status 0. *)
Lemma exit_zero_without_cancel :
  ~ (forall (flag : bool) (r : Z),
       snd (main_exit flag r) = 0%Z <-> (flag = true /\ (r >= 0)%Z)).
Proof.
  intros H. destruct (H false 0%Z) as [H1 _].
  destruct (H1 eq_refl) as [Hf _]. discriminate Hf.
Qed.

(** C10 (confirmed): on a raw buffer of at least 16384 * 5 * 2 bytes, every
    raw index the callback reads is below 163840, every audio-buffer index it
    writes is below 32768, and the callback never takes the out-of-bounds
    branch. *)
Theorem callback_in_bounds (iq : list byte) (len : Z) (st : state) :
  wf_state st -> SDR_BUFFER_LENGTH <= length iq ->
  (forall j k, j < AUDIO_BUFFER_LENGTH -> k < SDR_SAMPLE_RATIO ->
     iq_index j k + 1 < SDR_BUFFER_LENGTH) /\
  (forall j, j < AUDIO_BUFFER_LENGTH -> j * 2 + 1 < AUDIO_BUFFER_LENGTH * AUDIO_CHANNELS) /\
  exists st', sdr_callback iq len st = Some st'.
Proof.
  intros Hwf Hiq.
  split; [intros j k Hj Hk; unfold iq_index, SDR_BUFFER_LENGTH, SDR_SAMPLE_RATIO in *; lia|].
  split; [intros j Hj; unfold AUDIO_CHANNELS; lia|].
  destruct (do_exit st) eqn:Hdo.
  - exists st. unfold sdr_callback. rewrite Hdo. reflexivity.
  - destruct (sdr_callback_ok iq len st Hwf Hiq Hdo) as (buf' & Hcb & _).
    eexists. exact Hcb.
Qed.

Lemma callback_in_bounds_witness :
  wf_state (init_state 0) /\ SDR_BUFFER_LENGTH <= length (zero_buffer ++ [Byte.x01]) /\
  (forall j k, j < AUDIO_BUFFER_LENGTH -> k < SDR_SAMPLE_RATIO ->
     iq_index j k + 1 < SDR_BUFFER_LENGTH) /\
  (forall j, j < AUDIO_BUFFER_LENGTH -> j * 2 + 1 < AUDIO_BUFFER_LENGTH * AUDIO_CHANNELS) /\
  exists st', sdr_callback (zero_buffer ++ [Byte.x01]) 0%Z (init_state 0) = Some st'.
Proof.
  split; [apply repeat_length|].
  assert (H : SDR_BUFFER_LENGTH <= length (zero_buffer ++ [Byte.x01]))
    by (rewrite length_app; unfold zero_buffer; rewrite repeat_length; apply Nat.le_add_r).
  split; [exact H|].
  apply (callback_in_bounds (zero_buffer ++ [Byte.x01]) 0%Z (init_state 0));
    [apply repeat_length | exact H].
Defined.

(* ------------------------------------------------------------------------ *)
(** * Further properties of the code *)







(** X3: after the audio device is set up, a negative device index (from the
    last [-d] option, or from searching "0" when there is none) or a failing
    [rtlsdr_open] ends [main] with status 1: [rtlsdr_read_async] is never
    called, no buffer is processed, and neither the tuner nor the PCM handle
    is closed. *)
Theorem main_tuner_setup_failure (e : env) (opts : list (ascii * string))
    (drv : list drv_event) (cfg : config) (calls : list main_call) :
  parse_opts e config0 opts = (Some cfg, calls) ->
  (0 <= snd_pcm_open_ret e)%Z -> (0 <= snd_pcm_set_params_ret e)%Z ->
  let idx := if sdr_dev_given cfg then sdr_dev_index cfg else verbose_device_search e "0" in
  (idx < 0 \/ rtlsdr_open_ret e < 0)%Z ->
  exists tail, main e opts drv =
    Some (calls ++ [c_snd_pcm_open; c_snd_pcm_set_params AUDIO_CHANNELS AUDIO_SAMPLE_RATE 500000]
                ++ device_calls cfg ++ tail, 1%Z, init_state (cfg_audio_channel cfg)) /\
    (tail = [] \/ tail = [c_rtlsdr_open idx]).
Proof.
  intros Hp Ho Hs idx Hf. unfold main. rewrite Hp.
  destruct (Z.ltb_spec (snd_pcm_open_ret e) 0); [lia|].
  destruct (Z.ltb_spec (snd_pcm_set_params_ret e) 0); [lia|].
  fold idx. unfold device_calls.
  destruct (Z.ltb_spec idx 0).
  - exists []. split; [|left; reflexivity].
    destruct (sdr_dev_given cfg); rewrite !app_nil_r; simpl; rewrite <- ?app_assoc; reflexivity.
  - destruct (Z.ltb_spec (rtlsdr_open_ret e) 0); [|lia].
    exists [c_rtlsdr_open idx]. split; [|right; reflexivity].
    destruct (sdr_dev_given cfg); simpl; rewrite <- ?app_assoc; reflexivity.
Qed.

Lemma main_tuner_setup_failure_witness :
  parse_opts env_ok config0 [] = (Some config0, []) /\
  (0 <= snd_pcm_open_ret env_ok)%Z /\ (0 <= snd_pcm_set_params_ret env_ok)%Z /\
  (verbose_device_search env_ok "0" < 0 \/ rtlsdr_open_ret (mk_env (fun _ => 0%Z)
     (fun _ => 0%Q) (fun _ => 0%Q) (fun _ => 2%Z) (fun g => g) 0 0 (-1) 0) < 0)%Z /\
  exists tail, main (mk_env (fun _ => 0%Z) (fun _ => 0%Q) (fun _ => 0%Q) (fun _ => 2%Z)
                            (fun g => g) 0 0 (-1) 0) [] [] =
    Some ([] ++ [c_snd_pcm_open; c_snd_pcm_set_params AUDIO_CHANNELS AUDIO_SAMPLE_RATE 500000]
             ++ device_calls config0 ++ tail, 1%Z, init_state 0) /\
    (tail = [] \/ tail = [c_rtlsdr_open (verbose_device_search env_ok "0")]).
Proof.
  split; [reflexivity|]. split; [simpl; lia|]. split; [simpl; lia|].
  split; [simpl; lia|].
  apply (main_tuner_setup_failure
           (mk_env (fun _ => 0%Z) (fun _ => 0%Q) (fun _ => 0%Q) (fun _ => 2%Z) (fun g => g)
                   0 0 (-1) 0) [] [] config0 []);
    [reflexivity | simpl; lia | simpl; lia | simpl; lia].
Defined.

(** X4: when every setup step succeeds, [main] sets the tuner to 240000 Hz,
    calls [rtlsdr_read_async] with a buffer length of 163840 bytes, and after
    it returns closes the tuner, drains and closes the PCM device in that
    order; the buffers delivered meanwhile run through the callback with the
    routing mode of the last [-c] option, and the exit status is [|r|] for
    the code [r] returned by [rtlsdr_read_async]. *)
Theorem main_streaming_path (e : env) (opts : list (ascii * string))
    (drv : list drv_event) (cfg : config) (calls : list main_call) (st : state) :
  parse_opts e config0 opts = (Some cfg, calls) ->
  (0 <= snd_pcm_open_ret e)%Z -> (0 <= snd_pcm_set_params_ret e)%Z ->
  (0 <= (if sdr_dev_given cfg then sdr_dev_index cfg else verbose_device_search e "0"))%Z ->
  (0 <= rtlsdr_open_ret e)%Z ->
  run_driver drv (init_state (cfg_audio_channel cfg)) = Some st ->
  exists pre, main e opts drv =
    Some (pre ++ [c_set_sample_rate SDR_SAMPLE_RATE; c_set_frequency (sdr_frequency cfg)]
              ++ gain_calls e (sdr_gain cfg)
              ++ [c_ppm_set (sdr_ppm_error cfg); c_reset_buffer;
                  c_read_async SDR_BUFFER_LENGTH;
                  c_rtlsdr_close; c_snd_pcm_drain; c_snd_pcm_close],
          Z.abs (rtlsdr_read_async_ret e), st).
Proof.
  intros Hp Ho Hs Hi Hr Hd. unfold main. rewrite Hp.
  destruct (Z.ltb_spec (snd_pcm_open_ret e) 0); [lia|].
  destruct (Z.ltb_spec (snd_pcm_set_params_ret e) 0); [lia|].
  destruct (Z.ltb_spec (if sdr_dev_given cfg then sdr_dev_index cfg
                        else verbose_device_search e "0") 0); [lia|].
  destruct (Z.ltb_spec (rtlsdr_open_ret e) 0); [lia|].
  rewrite Hd.
  assert (Hx : snd (main_exit (do_exit st) (rtlsdr_read_async_ret e))
               = Z.abs (rtlsdr_read_async_ret e)).
  { unfold main_exit. cbn [snd]. destruct (Z.geb_spec (rtlsdr_read_async_ret e) 0).
    - symmetry. apply Z.abs_eq. lia.
    - symmetry. apply Z.abs_neq. lia. }
  rewrite Hx.
  exists (calls ++ [c_snd_pcm_open; c_snd_pcm_set_params AUDIO_CHANNELS AUDIO_SAMPLE_RATE 500000]
          ++ device_calls cfg
          ++ [c_rtlsdr_open (if sdr_dev_given cfg then sdr_dev_index cfg
                             else verbose_device_search e "0")]).
  unfold device_calls. destruct (sdr_dev_given cfg); rewrite <- !app_assoc; reflexivity.
Qed.

Lemma main_streaming_path_witness :
  parse_opts env_ok config0 [("c"%char, "2"%string)]
    = (Some (mk_config 0 false 0 0 148039000 2), []) /\
  (0 <= snd_pcm_open_ret env_ok)%Z /\ (0 <= snd_pcm_set_params_ret env_ok)%Z /\
  (0 <= verbose_device_search env_ok "0")%Z /\ (0 <= rtlsdr_open_ret env_ok)%Z /\
  run_driver [drv_signal] (init_state 2) = Some (sighandler (init_state 2)) /\
  exists pre, main env_ok [("c"%char, "2"%string)] [drv_signal] =
    Some (pre ++ [c_set_sample_rate SDR_SAMPLE_RATE; c_set_frequency 148039000]
              ++ gain_calls env_ok 0
              ++ [c_ppm_set 0; c_reset_buffer; c_read_async SDR_BUFFER_LENGTH;
                  c_rtlsdr_close; c_snd_pcm_drain; c_snd_pcm_close],
          Z.abs (rtlsdr_read_async_ret env_ok), sighandler (init_state 2)).
Proof.
  assert (H : parse_opts env_ok config0 [("c"%char, "2"%string)]
              = (Some (mk_config 0 false 0 0 148039000 2), [])) by reflexivity.
  split; [exact H|]. do 4 (split; [simpl; lia|]).
  split; [reflexivity|].
  apply (main_streaming_path env_ok _ [drv_signal] _ [] (sighandler (init_state 2)) H);
    first [reflexivity | unfold snd_pcm_open_ret, snd_pcm_set_params_ret, rtlsdr_open_ret,
                          verbose_device_search, env_ok; cbn [sdr_dev_given]; lia].
Defined.





Lemma store_length (buf : list Q) (idx : nat) (v : Q) (buf' : list Q) :
  store buf idx v = Some buf' -> length buf' = length buf.
Proof.
  revert idx buf'; induction buf as [|h t IH]; intros [|idx] buf' H; simpl in H;
    try discriminate.
  - injection H as <-. reflexivity.
  - destruct (store t idx v) as [t'|] eqn:Ht; simpl in H; [|discriminate].
    injection H as <-. simpl. f_equal. apply (IH idx). exact Ht.
Qed.

Lemma frame_loop_length (ch : Z) (iq : list byte) (n j : nat) (m m' : R) (buf buf' : list Q) :
  frame_loop ch iq j n m buf = Some (m', buf') -> length buf' = length buf.
Proof.
  revert j m buf; induction n as [|n IH]; intros j m buf H; simpl in H.
  - injection H as _ <-. reflexivity.
  - unfold frame_body in H.
    destruct (decimate iq j) as [[i q]|]; [|discriminate].
    destruct (if sel_left ch then store buf (j * 2) q else Some buf) as [b1|] eqn:E1;
      [|discriminate].
    destruct (if sel_right ch then store b1 (j * 2 + 1) q else Some b1) as [b2|] eqn:E2;
      [|discriminate].
    apply IH in H. rewrite H.
    assert (L1 : length b1 = length buf)
      by (destruct (sel_left ch); [exact (store_length _ _ _ _ E1)|congruence]).
    assert (L2 : length b2 = length b1)
      by (destruct (sel_right ch); [exact (store_length _ _ _ _ E2)|congruence]).
    congruence.
Qed.

(** X6: the driver loop keeps the process invariants: the audio buffer keeps
    its fixed size, the routing mode never changes, a set cancellation flag is
    never cleared, and the effect trace only grows. *)
Theorem run_driver_invariants (evs : list drv_event) (st st' : state) :
  wf_state st -> run_driver evs st = Some st' ->
  wf_state st' /\ audio_channel st' = audio_channel st /\
  (do_exit st = true -> do_exit st' = true) /\
  exists new, trace st' = trace st ++ new.
Proof.
  revert st; induction evs as [|[iq|] evs IH]; intros st Hwf H; cbn [run_driver] in H.
  - injection H as <-. split; [exact Hwf|]. split; [reflexivity|]. split; [auto|].
    exists []. symmetry. apply app_nil_r.
  - destruct (sdr_callback iq (Z.of_nat SDR_BUFFER_LENGTH) st) as [s1|] eqn:Hcb;
      [|discriminate].
    assert (Hs1 : wf_state s1 /\ audio_channel s1 = audio_channel st /\
                  do_exit s1 = do_exit st /\ exists new, trace s1 = trace st ++ new).
    { unfold sdr_callback in Hcb. destruct (do_exit st) eqn:Hdo.
      - injection Hcb as <-. split; [exact Hwf|]. split; [reflexivity|]. split; [exact Hdo|].
        exists []. symmetry. apply app_nil_r.
      - destruct (frame_loop (audio_channel st) iq 0 AUDIO_BUFFER_LENGTH 0%R
                             (g_audio_buffer st)) as [[m b]|] eqn:Hl; [|discriminate].
        injection Hcb as <-. unfold wf_state in *. cbn [g_audio_buffer audio_channel do_exit trace].
        split; [rewrite (frame_loop_length _ _ _ _ _ _ _ _ Hl); exact Hwf|].
        split; [reflexivity|]. split; [reflexivity|]. eexists; reflexivity. }
    destruct Hs1 as (W1 & C1 & D1 & (n1 & T1)).
    destruct (IH s1 W1 H) as (W2 & C2 & D2 & (n2 & T2)).
    split; [exact W2|]. split; [congruence|]. split; [intros Hd; apply D2; congruence|].
    exists (n1 ++ n2). rewrite T2, T1, app_assoc. reflexivity.
  - destruct (IH (sighandler st) Hwf H) as (W2 & C2 & D2 & (n2 & T2)).
    split; [exact W2|]. split; [exact C2|]. split; [intros _; apply D2; reflexivity|].
    exists (ev_cancel_async :: n2). rewrite T2. cbn [sighandler trace]. rewrite <- app_assoc. reflexivity.
Qed.

Lemma run_driver_invariants_witness :
  wf_state (init_state 1) /\
  run_driver [drv_signal; drv_buffer zero_buffer] (init_state 1)
    = Some (sighandler (init_state 1)) /\
  wf_state (sighandler (init_state 1)) /\
  audio_channel (sighandler (init_state 1)) = audio_channel (init_state 1) /\
  (do_exit (init_state 1) = true -> do_exit (sighandler (init_state 1)) = true) /\
  exists new, trace (sighandler (init_state 1)) = trace (init_state 1) ++ new.
Proof.
  assert (W : wf_state (init_state 1)) by apply repeat_length.
  assert (H : run_driver [drv_signal; drv_buffer zero_buffer] (init_state 1)
              = Some (sighandler (init_state 1))) by reflexivity.
  split; [exact W|]. split; [exact H|].
  apply (run_driver_invariants _ _ _ W H).
Defined.

Lemma sum_loop_I_bounds (iq : list byte) (j k n : nat) (sI sQ x y : Q) :
  sum_loop iq j k n sI sQ = Some (x, y) ->
  (- inject_Z (Z.of_nat n) + sI <= x <= inject_Z (Z.of_nat n) + sI)%Q.
Proof.
  revert k sI sQ; induction n as [|n IH]; intros k sI sQ Hs; simpl in Hs.
  - injection Hs as <- <-. simpl. change (inject_Z 0) with 0%Q. qlra.
  - destruct (iq_read iq (iq_index j k)) as [bI|]; [|discriminate].
    destruct (iq_read iq (iq_index j k + 1)) as [bQ|]; [|discriminate].
    apply IH in Hs. pose proof (sample_value_bounds bI).
    rewrite Nat2Z.inj_succ, <- Z.add_1_r, inject_Z_plus in *.
    change (inject_Z 1) with 1%Q. qlra.
Qed.

Lemma dec_I_bounds (iq : list byte) (j : nat) : (-1 <= dec_I iq j <= 1)%Q.
Proof.
  unfold dec_I, decimate.
  destruct (sum_loop iq j 0 SDR_SAMPLE_RATIO 0 0) as [[x y]|] eqn:Hs; [|qlra].
  apply sum_loop_I_bounds in Hs.
  change (inject_Z (Z.of_nat SDR_SAMPLE_RATIO)) with 5%Q in *.
  split.
  - apply Qle_shift_div_l; [reflexivity|]. qlra.
  - apply Qle_shift_div_r; [reflexivity|]. qlra.
Qed.

Lemma frame_mag_le_sqrt2 (iq : list byte) (j : nat) : (frame_mag iq j <= sqrt 2)%R.
Proof.
  unfold frame_mag, magnitude. apply sqrt_le_1_alt.
  pose proof (dec_I_bounds iq j) as HI. pose proof (dec_Q_bounds iq j) as HQ.
  assert (H : (dec_I iq j * dec_I iq j + dec_Q iq j * dec_Q iq j <= 2)%Q) by qnra.
  apply Qle_Rle in H. replace (Q2R 2) with 2%R in H; [exact H|].
  unfold Q2R. simpl. rewrite Rinv_1. rlra.
Qed.

(** X7: the level reported by a callback lies in [[0, sqrt 2]]: each decimated
    component is in [[-1, 1]], so no frame magnitude exceeds [sqrt 2] (the
    meter bar [(int)(maxA * 30)] is at most 42 characters wide). *)
Theorem meter_level_bounds (iq : list byte) (len : Z) (st : state) :
  wf_state st -> length iq = SDR_BUFFER_LENGTH -> do_exit st = false ->
  exists st' m, sdr_callback iq len st = Some st' /\
    trace st' = trace st ++ [ev_meter m; ev_pcm_write (g_audio_buffer st') AUDIO_BUFFER_LENGTH] /\
    (0 <= m <= sqrt 2)%R.
Proof.
  intros Hwf Hiq Hdo.
  destruct (sdr_callback_ok iq len st Hwf ltac:(lia) Hdo) as (buf' & Hcb & _).
  destruct (peak_fold_max iq AUDIO_BUFFER_LENGTH AUDIO_BUFFER_LENGTH_pos) as (_ & (f & _ & Hf)).
  do 2 eexists. split; [exact Hcb|]. split; [reflexivity|].
  rewrite Hf. split; [apply frame_mag_nonneg | apply frame_mag_le_sqrt2].
Qed.

Lemma meter_level_bounds_witness :
  wf_state (init_state 0) /\ length zero_buffer = SDR_BUFFER_LENGTH /\
  do_exit (init_state 0) = false /\
  exists st' m, sdr_callback zero_buffer 0%Z (init_state 0) = Some st' /\
    trace st' = trace (init_state 0) ++
      [ev_meter m; ev_pcm_write (g_audio_buffer st') AUDIO_BUFFER_LENGTH] /\
    (0 <= m <= sqrt 2)%R.
Proof.
  split; [apply repeat_length|]. split; [apply repeat_length|]. split; [reflexivity|].
  apply (meter_level_bounds zero_buffer 0%Z (init_state 0));
    [apply repeat_length | apply repeat_length | reflexivity].
Defined.



Lemma frames_ext (b b' : list Q) :
  length b = AUDIO_BUFFER_LENGTH * AUDIO_CHANNELS ->
  length b' = AUDIO_BUFFER_LENGTH * AUDIO_CHANNELS ->
  (forall f, f < AUDIO_BUFFER_LENGTH -> nth (2 * f) b 0%Q = nth (2 * f) b' 0%Q) ->
  (forall f, f < AUDIO_BUFFER_LENGTH -> nth (2 * f + 1) b 0%Q = nth (2 * f + 1) b' 0%Q) ->
  b = b'.
Proof.
  intros Hl Hl' HL HR. apply nth_ext with (d := 0%Q) (d' := 0%Q); [congruence|].
  intros idx Hidx. rewrite Hl in Hidx. unfold AUDIO_CHANNELS in Hidx.
  destruct (Nat.Even_or_Odd idx) as [[f ->]|[f ->]]; [apply HL | apply HR]; lia.
Qed.

(** X9: in routing mode 0 (both channels) a callback overwrites the whole
    audio buffer: the buffer it leaves does not depend on what the buffer held
    before the call. *)
Theorem both_mode_overwrites (iq : list byte) (len : Z) (st1 st2 : state) :
  wf_state st1 -> wf_state st2 -> length iq = SDR_BUFFER_LENGTH ->
  do_exit st1 = false -> do_exit st2 = false ->
  audio_channel st1 = 0%Z -> audio_channel st2 = 0%Z ->
  exists s1 s2, sdr_callback iq len st1 = Some s1 /\ sdr_callback iq len st2 = Some s2 /\
    g_audio_buffer s1 = g_audio_buffer s2.
Proof.
  intros W1 W2 Hiq D1 D2 C1 C2.
  destruct (sdr_callback_ok iq len st1 W1 ltac:(lia) D1) as (b1 & H1 & L1 & HL1 & HR1).
  destruct (sdr_callback_ok iq len st2 W2 ltac:(lia) D2) as (b2 & H2 & L2 & HL2 & HR2).
  do 2 eexists. split; [exact H1|]. split; [exact H2|]. cbn [g_audio_buffer].
  rewrite C1 in HL1, HR1. rewrite C2 in HL2, HR2.
  apply frames_ext; [exact L1 | exact L2 | |]; intros f Hf.
  - rewrite (HL1 f Hf), (HL2 f Hf). reflexivity.
  - rewrite (HR1 f Hf), (HR2 f Hf). reflexivity.
Qed.

Lemma both_mode_overwrites_witness :
  wf_state (init_state 0) /\
  wf_state (mk_state false 0 (repeat 1%Q (AUDIO_BUFFER_LENGTH * AUDIO_CHANNELS)) []) /\
  length zero_buffer = SDR_BUFFER_LENGTH /\
  do_exit (init_state 0) = false /\
  do_exit (mk_state false 0 (repeat 1%Q (AUDIO_BUFFER_LENGTH * AUDIO_CHANNELS)) []) = false /\
  audio_channel (init_state 0) = 0%Z /\
  audio_channel (mk_state false 0 (repeat 1%Q (AUDIO_BUFFER_LENGTH * AUDIO_CHANNELS)) []) = 0%Z /\
  exists s1 s2, sdr_callback zero_buffer 0%Z (init_state 0) = Some s1 /\
    sdr_callback zero_buffer 0%Z
      (mk_state false 0 (repeat 1%Q (AUDIO_BUFFER_LENGTH * AUDIO_CHANNELS)) []) = Some s2 /\
    g_audio_buffer s1 = g_audio_buffer s2.
Proof.
  split; [apply repeat_length|]. split; [apply repeat_length|].
  split; [apply repeat_length|]. do 4 (split; [reflexivity|]).
  apply both_mode_overwrites;
    first [apply repeat_length | reflexivity].
Defined.

(** X10: with a routing mode other than 0, 1 or 2 (e.g. [-c 3]) a callback
    writes no sample into the audio buffer, yet still prints the meter and
    sends the unchanged buffer to the sound device. *)
Theorem other_mode_writes_nothing (iq : list byte) (len : Z) (st : state) :
  wf_state st -> length iq = SDR_BUFFER_LENGTH -> do_exit st = false ->
  (audio_channel st <> 0 /\ audio_channel st <> 1 /\ audio_channel st <> 2)%Z ->
  exists m, sdr_callback iq len st =
    Some (mk_state false (audio_channel st) (g_audio_buffer st)
            (trace st ++ [ev_meter m; ev_pcm_write (g_audio_buffer st) AUDIO_BUFFER_LENGTH])).
Proof.
  intros Hwf Hiq Hdo (N0 & N1 & N2).
  destruct (sdr_callback_ok iq len st Hwf ltac:(lia) Hdo) as (b & H & L & HL & HR).
  assert (SL : sel_left (audio_channel st) = false).
  { unfold sel_left. apply Z.eqb_neq in N0, N1. rewrite N0, N1. reflexivity. }
  assert (SR : sel_right (audio_channel st) = false).
  { unfold sel_right. apply Z.eqb_neq in N0, N2. rewrite N0, N2. reflexivity. }
  rewrite SL in HL. rewrite SR in HR.
  assert (Hb : b = g_audio_buffer st) by (apply frames_ext; [exact L | exact Hwf | exact HL | exact HR]).
  subst b. eexists. exact H.
Qed.

Lemma other_mode_writes_nothing_witness :
  wf_state (init_state 3) /\ length zero_buffer = SDR_BUFFER_LENGTH /\
  do_exit (init_state 3) = false /\
  (audio_channel (init_state 3) <> 0 /\ audio_channel (init_state 3) <> 1 /\
   audio_channel (init_state 3) <> 2)%Z /\
  exists m, sdr_callback zero_buffer 0%Z (init_state 3) =
    Some (mk_state false (audio_channel (init_state 3)) (g_audio_buffer (init_state 3))
            (trace (init_state 3) ++
             [ev_meter m; ev_pcm_write (g_audio_buffer (init_state 3)) AUDIO_BUFFER_LENGTH])).
Proof.
  assert (N : (audio_channel (init_state 3) <> 0 /\ audio_channel (init_state 3) <> 1 /\
               audio_channel (init_state 3) <> 2)%Z) by (cbn [audio_channel init_state]; lia).
  split; [apply repeat_length|]. split; [apply repeat_length|]. split; [reflexivity|].
  split; [exact N|].
  apply (other_mode_writes_nothing zero_buffer 0%Z (init_state 3));
    [apply repeat_length | apply repeat_length | reflexivity | exact N].
Defined.

Ltac opt_char_case x c :=
  rewrite ?(Ascii.eqb_sym x c);
  let E := fresh "Ec" in
  destruct (Ascii.eqb c x) eqn:E; [apply Ascii.eqb_eq in E; subst c | ].

Lemma parse_opts_fields (e : env) (cfg : config) (opts : list (ascii * string))
    (cfg' : config) (calls : list main_call) :
  parse_opts e cfg opts = (Some cfg', calls) ->
  sdr_dev_index cfg' =
    match last_arg "d" opts with Some a => verbose_device_search e a | None => sdr_dev_index cfg end /\
  sdr_dev_given cfg' =
    (sdr_dev_given cfg || match last_arg "d" opts with Some _ => true | None => false end) /\
  sdr_frequency cfg' =
    match last_arg "f" opts with
    | Some a => (trunc_Q (atofs e a) mod 2 ^ 32)%Z | None => sdr_frequency cfg end /\
  sdr_gain cfg' =
    match last_arg "g" opts with Some a => trunc_Q (atof e a * 10)%Q | None => sdr_gain cfg end /\
  sdr_ppm_error cfg' =
    match last_arg "p" opts with Some a => atoi e a | None => sdr_ppm_error cfg end /\
  cfg_audio_channel cfg' =
    match last_arg "c" opts with Some a => atoi e a | None => cfg_audio_channel cfg end.
Proof.
  revert cfg calls. induction opts as [|[c a] rest IH]; intros cfg calls H.
  - cbn in H. injection H as <- _. cbn [last_arg]. rewrite orb_false_r.
    repeat split.
  - cbn [parse_opts] in H.
    destruct (parse_opt e cfg c a) as [[cfg1 cs]|] eqn:P; [|discriminate].
    destruct (parse_opts e cfg1 rest) as [res cs'] eqn:R. injection H as -> _.
    destruct (IH _ _ R) as (Hd & Hg & Hf & Hgn & Hp & Hc). clear IH R.
    rewrite Hd, Hg, Hf, Hgn, Hp, Hc. clear Hd Hg Hf Hgn Hp Hc.
    cbn [last_arg]. unfold parse_opt in P. revert P.
    opt_char_case "d"%char c; [|opt_char_case "f"%char c; [|opt_char_case "g"%char c;
      [|opt_char_case "p"%char c; [|opt_char_case "c"%char c; [|discriminate]]]]];
    cbn; intros P; injection P as <- _; cbn [sdr_dev_index sdr_dev_given sdr_frequency
      sdr_gain sdr_ppm_error cfg_audio_channel];
    repeat match goal with |- context [last_arg ?x rest] => destruct (last_arg x rest) end;
    rewrite ?orb_true_r; repeat split.
Qed.

(** X11: when the options parse, each setting comes from the LAST occurrence
    of its option ([-d], [-f], [-g], [-p], [-c]); an option that never occurs
    leaves the initial value, and [-d] anywhere marks the device as given. *)
Theorem parse_last_option_wins (e : env) (opts : list (ascii * string))
    (cfg : config) (calls : list main_call) :
  parse_opts e config0 opts = (Some cfg, calls) ->
  sdr_dev_index cfg =
    match last_arg "d" opts with Some a => verbose_device_search e a | None => 0%Z end /\
  sdr_dev_given cfg = match last_arg "d" opts with Some _ => true | None => false end /\
  sdr_frequency cfg =
    match last_arg "f" opts with
    | Some a => (trunc_Q (atofs e a) mod 2 ^ 32)%Z | None => 148039000%Z end /\
  sdr_gain cfg =
    match last_arg "g" opts with Some a => trunc_Q (atof e a * 10)%Q | None => 0%Z end /\
  sdr_ppm_error cfg =
    match last_arg "p" opts with Some a => atoi e a | None => 0%Z end /\
  cfg_audio_channel cfg =
    match last_arg "c" opts with Some a => atoi e a | None => 0%Z end.
Proof.
  intros H. exact (parse_opts_fields e config0 opts cfg calls H).
Qed.

Lemma parse_last_option_wins_witness :
  parse_opts (mk_env (fun _ => 0%Z) (fun _ => 0%Q) (fun _ => 0%Q)
                     (fun s => Z.of_nat (String.length s)) (fun g => g) 0 0 0 0) config0
    [("c"%char, "1"%string); ("p"%char, "55"%string); ("c"%char, "222"%string)]
    = (Some (mk_config 0 false 0 2 148039000 3), []) /\
  sdr_dev_index (mk_config 0 false 0 2 148039000 3) = 0%Z /\
  sdr_dev_given (mk_config 0 false 0 2 148039000 3) = false /\
  sdr_frequency (mk_config 0 false 0 2 148039000 3) = 148039000%Z /\
  sdr_gain (mk_config 0 false 0 2 148039000 3) = 0%Z /\
  sdr_ppm_error (mk_config 0 false 0 2 148039000 3) = 2%Z /\
  cfg_audio_channel (mk_config 0 false 0 2 148039000 3) = 3%Z.
Proof.
  assert (H : parse_opts (mk_env (fun _ => 0%Z) (fun _ => 0%Q) (fun _ => 0%Q)
                     (fun s => Z.of_nat (String.length s)) (fun g => g) 0 0 0 0) config0
    [("c"%char, "1"%string); ("p"%char, "55"%string); ("c"%char, "222"%string)]
    = (Some (mk_config 0 false 0 2 148039000 3), [])) by reflexivity.
  split; [exact H|]. exact (parse_last_option_wins _ _ _ _ H).
Defined.

Lemma trunc_Q_small (x : Q) : (-1 < x)%Q -> (x < 1)%Q -> trunc_Q x = 0%Z.
Proof.
  destruct x as [n d]. unfold Qlt, trunc_Q. cbn [Qnum Qden]. intros H1 H2.
  apply Z.quot_small_iff; lia.
Qed.

(** X12: a [-g] value whose tenths truncate to 0 (e.g. [-g 0.05], or any
    value with [|atof(arg) * 10| < 1]) is the same as no [-g]: [sdr_gain] is
    0 and [main] selects automatic gain instead of a manual one. *)
Theorem small_gain_is_auto (e : env) (opts : list (ascii * string)) (cfg : config)
    (calls : list main_call) (a : string) :
  parse_opts e config0 opts = (Some cfg, calls) ->
  last_arg "g" opts = Some a ->
  (-1 < atof e a * 10)%Q -> (atof e a * 10 < 1)%Q ->
  sdr_gain cfg = 0%Z /\ gain_calls e (sdr_gain cfg) = [c_auto_gain].
Proof.
  intros H Ha H1 H2.
  destruct (parse_opts_fields e config0 opts cfg calls H) as (_ & _ & _ & Hg & _).
  rewrite Ha in Hg. rewrite (trunc_Q_small _ H1 H2) in Hg.
  rewrite Hg. split; reflexivity.
Qed.

Lemma small_gain_is_auto_witness :
  parse_opts (mk_env (fun _ => 0%Z) (fun _ => 0%Q) (fun _ => (1 # 20)%Q) (fun _ => 0%Z)
                     (fun g => g) 0 0 0 0) config0 [("g"%char, "0.05"%string)]
    = (Some (mk_config 0 false 0 0 148039000 0), []) /\
  last_arg "g" [("g"%char, "0.05"%string)] = Some "0.05"%string /\
  sdr_gain (mk_config 0 false 0 0 148039000 0) = 0%Z /\
  gain_calls (mk_env (fun _ => 0%Z) (fun _ => 0%Q) (fun _ => (1 # 20)%Q) (fun _ => 0%Z)
                     (fun g => g) 0 0 0 0) (sdr_gain (mk_config 0 false 0 0 148039000 0))
    = [c_auto_gain].
Proof.
  assert (H : parse_opts (mk_env (fun _ => 0%Z) (fun _ => 0%Q) (fun _ => (1 # 20)%Q)
                     (fun _ => 0%Z) (fun g => g) 0 0 0 0) config0 [("g"%char, "0.05"%string)]
    = (Some (mk_config 0 false 0 0 148039000 0), [])) by reflexivity.
  split; [exact H|]. split; [reflexivity|].
  apply (small_gain_is_auto _ _ _ _ "0.05"%string H); [reflexivity | |];
    cbn [atof]; qlra.
Defined.
